(** * The LabelChecker column schema

    A shallow embedding of [src/schemas/LabelCheckerColumns.py]: the module
    binds one global, [column_name_types], to a dict display of eighty
    [name: dtype] items.  The embedding keeps the three layers of the source
    apart: Python's insertion-ordered [dict], the values the display stores
    (pandas [ArrowDtype] objects and plain [str] objects), and the table
    itself.  The interface vocabulary of the specification (type tags,
    [Lookup], [Enumerate]) is defined over that embedding. *)

From Stdlib Require Import String Ascii List Bool Arith Lia.
Import ListNotations.
Local Open Scope string_scope.
Local Open Scope list_scope.

(** ** Python exceptions raised by subscription *)

(** [d[k]] on a built-in [dict] raises [KeyError(k)] when [k] is absent; with
    [str] keys it raises nothing else.  The specification calls this
    absent-key condition [UnknownColumnError]. *)
Inductive exn : Type :=
| KeyError (key : string).

(** ** Insertion-ordered dictionaries with [str] keys *)

Module PyDict.
Section Dict.
Context {V : Type}.

(** A dict is the sequence of its items in insertion order. *)
Definition dict : Type := list (string * V).

Definition empty : dict := [].

(** [d[k] = v]: an existing key keeps its position and gets the new value,
    a new key goes to the end. *)
Fixpoint setitem (k : string) (v : V) (d : dict) : dict :=
  match d with
  | [] => [(k, v)]
  | (k', v') :: rest =>
      if String.eqb k k' then (k', v) :: rest
      else (k', v') :: setitem k v rest
  end.

(** A dict display [{k1: v1, ..., kn: vn}] evaluates its items left to
    right and stores each one in turn into a fresh dict. *)
Definition display (entries : list (string * V)) : dict :=
  fold_left (fun d kv => setitem (fst kv) (snd kv) d) entries empty.

(** [d[k]] *)
Fixpoint getitem (k : string) (d : dict) : exn + V :=
  match d with
  | [] => inl (KeyError k)
  | (k', v) :: rest => if String.eqb k k' then inr v else getitem k rest
  end.

(** [list(d.items())], [list(d.keys())], [len(d)], [k in d] *)
Definition items (d : dict) : list (string * V) := d.
Definition keys (d : dict) : list string := map fst d.
Definition len (d : dict) : nat := length d.
Definition contains (k : string) (d : dict) : bool :=
  existsb (String.eqb k) (keys d).
End Dict.
Arguments dict V : clear implicits.
End PyDict.

(** ** The values stored in the table *)

(** The three [pyarrow] type factories the module calls. *)
Module pa.
Inductive DataType : Type := string | float32 | uint64.

Definition eqb (a b : DataType) : bool :=
  match a, b with
  | string, string | float32, float32 | uint64, uint64 => true
  | _, _ => false
  end.
End pa.

(** A dict value of the module is either [pd.ArrowDtype(t)] for a pyarrow
    type [t], or a Python [str]. *)
Inductive dtype : Type :=
| pd_ArrowDtype (pyarrow_dtype : pa.DataType)
| py_str (s : string).


(** ** The table *)

(** The items of the dict display, in source order. *)
Definition column_name_types_display : list (string * dtype) :=
  [
    ("Name", pd_ArrowDtype pa.string);
    ("AbdArea", pd_ArrowDtype pa.float32);
    ("FilledArea", pd_ArrowDtype pa.float32);
    ("AspectRatio", pd_ArrowDtype pa.float32);
    ("AvgBlue", pd_ArrowDtype pa.float32);
    ("AvgGreen", pd_ArrowDtype pa.float32);
    ("AvgRed", pd_ArrowDtype pa.float32);
    ("BiovolumeCylinder", pd_ArrowDtype pa.float32);
    ("BiovolumePSpheroid", pd_ArrowDtype pa.float32);
    ("BiovolumeSphere", pd_ArrowDtype pa.float32);
    ("CalConst", pd_ArrowDtype pa.float32);
    ("CalImage", pd_ArrowDtype pa.uint64);
    ("Ch1Area", pd_ArrowDtype pa.float32);
    ("Ch1Peak", pd_ArrowDtype pa.float32);
    ("Ch1Width", pd_ArrowDtype pa.float32);
    ("Ch2Area", pd_ArrowDtype pa.float32);
    ("Ch2Peak", pd_ArrowDtype pa.float32);
    ("Ch2Width", pd_ArrowDtype pa.float32);
    ("Ch2Ch1Ratio", pd_ArrowDtype pa.float32);
    ("CircleFit", pd_ArrowDtype pa.float32);
    ("Circularity", pd_ArrowDtype pa.float32);
    ("CircularityHu", pd_ArrowDtype pa.float32);
    ("CollageFile", pd_ArrowDtype pa.string);
    ("Compactness", pd_ArrowDtype pa.float32);
    ("ConvexPerimeter", pd_ArrowDtype pa.float32);
    ("Convexity", pd_ArrowDtype pa.float32);
    ("Date", py_str "Datetime64[pyarrow]");
    ("AbdDiameter", pd_ArrowDtype pa.float32);
    ("EsdDiameter", pd_ArrowDtype pa.float32);
    ("FdDiameter", pd_ArrowDtype pa.float32);
    ("EdgeGradient", pd_ArrowDtype pa.float32);
    ("ElapsedTime", pd_ArrowDtype pa.float32);
    ("Elongation", pd_ArrowDtype pa.float32);
    ("FeretMaxAngle", pd_ArrowDtype pa.float32);
    ("FeretMinAngle", pd_ArrowDtype pa.float32);
    ("FiberCurl", pd_ArrowDtype pa.float32);
    ("FiberStraightness", pd_ArrowDtype pa.float32);
    ("FilterScore", pd_ArrowDtype pa.float32);
    ("GeodesicAspectRatio", pd_ArrowDtype pa.float32);
    ("GeodesicLength", pd_ArrowDtype pa.float32);
    ("GeodesicThickness", pd_ArrowDtype pa.float32);
    ("GroupId", pd_ArrowDtype pa.uint64);
    ("Id", pd_ArrowDtype pa.uint64);
    ("ImageFilename", pd_ArrowDtype pa.string);
    ("ImageX", pd_ArrowDtype pa.uint64);
    ("ImageY", pd_ArrowDtype pa.uint64);
    ("ImageH", pd_ArrowDtype pa.uint64);
    ("ImageW", pd_ArrowDtype pa.uint64);
    ("Intensity", pd_ArrowDtype pa.float32);
    ("Length", pd_ArrowDtype pa.float32);
    ("Ppc", pd_ArrowDtype pa.uint64);
    ("Perimeter", pd_ArrowDtype pa.float32);
    ("RatioBlueGreen", pd_ArrowDtype pa.float32);
    ("RatioRedBlue", pd_ArrowDtype pa.float32);
    ("RatioRedGreen", pd_ArrowDtype pa.float32);
    ("Roughness", pd_ArrowDtype pa.float32);
    ("SigmaIntensity", pd_ArrowDtype pa.float32);
    ("SrcImage", pd_ArrowDtype pa.uint64);
    ("SrcX", pd_ArrowDtype pa.uint64);
    ("SrcY", pd_ArrowDtype pa.uint64);
    ("SphereComplement", pd_ArrowDtype pa.uint64);
    ("SphereCount", pd_ArrowDtype pa.uint64);
    ("SphereUnknown", pd_ArrowDtype pa.uint64);
    ("SphereVolume", pd_ArrowDtype pa.float32);
    ("SumIntensity", pd_ArrowDtype pa.uint64);
    ("Symmetry", pd_ArrowDtype pa.float32);
    ("Time", py_str "Datetime64[pyarrow]");
    ("Timestamp", py_str "Datetime64[pyarrow]");
    ("Transparency", pd_ArrowDtype pa.float32);
    ("Uuid", pd_ArrowDtype pa.string);
    ("AbdVolume", pd_ArrowDtype pa.float32);
    ("EsdVolume", pd_ArrowDtype pa.float32);
    ("Width", pd_ArrowDtype pa.float32);
    ("BiovolumeHSosik", pd_ArrowDtype pa.float32);
    ("SurfaceAreaHSosik", pd_ArrowDtype pa.float32);
    ("Preprocessing", pd_ArrowDtype pa.string);
    ("PreprocessingTrue", pd_ArrowDtype pa.string);
    ("ProbabilityScore", pd_ArrowDtype pa.float32);
    ("LabelPredicted", pd_ArrowDtype pa.string);
    ("LabelTrue", pd_ArrowDtype pa.string)
  ].

(** [column_name_types = { ... }] *)
Definition column_name_types : PyDict.dict dtype :=
  PyDict.display column_name_types_display.

(** ** The interface of the specification *)

(** The four type tags of the glossary. *)
Inductive TypeTag : Type := TFloat32 | TUInt64 | TString | TDateTime.

Definition TypeTag_eqb (a b : TypeTag) : bool :=
  match a, b with
  | TFloat32, TFloat32 | TUInt64, TUInt64
  | TString, TString | TDateTime, TDateTime => true
  | _, _ => false
  end.

(** The tag a stored value stands for: an [ArrowDtype] stands for the tag of
    its pyarrow type, and the dtype alias ["Datetime64[pyarrow]"] stands for
    [datetime].  No other [str] is a type tag. *)
Definition type_tag (v : dtype) : option TypeTag :=
  match v with
  | pd_ArrowDtype pa.float32 => Some TFloat32
  | pd_ArrowDtype pa.uint64 => Some TUInt64
  | pd_ArrowDtype pa.string => Some TString
  | py_str s => if String.eqb s "Datetime64[pyarrow]" then Some TDateTime else None
  end.

(** [Lookup(name)] is the subscription [column_name_types[name]]. *)
Definition Lookup (name : string) : exn + dtype :=
  PyDict.getitem name column_name_types.

(** [Enumerate()] is [column_name_types.items()], read out as a list. *)
Definition Enumerate : list (string * dtype) :=
  PyDict.items column_name_types.

(** [Lookup(name)] returns a value that stands for tag [t]. *)
Definition Lookup_returns (name : string) (t : TypeTag) : Prop :=
  exists v, Lookup name = inr v /\ type_tag v = Some t.

(** The declared column names. *)
Definition declared (name : string) : Prop :=
  In name (PyDict.keys column_name_types).

(** *** The reference mapping of the specification *)

(** The full column list of section 6, in the order it is printed. *)
Definition section6_columns : list string :=
  [
    "Name"; "AbdArea"; "FilledArea"; "AspectRatio"; "AvgBlue"; "AvgGreen";
    "AvgRed"; "BiovolumeCylinder"; "BiovolumePSpheroid"; "BiovolumeSphere";
    "CalConst"; "CalImage"; "Ch1Area"; "Ch1Peak"; "Ch1Width"; "Ch2Area";
    "Ch2Peak"; "Ch2Width"; "Ch2Ch1Ratio"; "CircleFit"; "Circularity";
    "CircularityHu"; "CollageFile"; "Compactness"; "ConvexPerimeter";
    "Convexity"; "Date"; "AbdDiameter"; "EsdDiameter"; "FdDiameter";
    "EdgeGradient"; "ElapsedTime"; "Elongation"; "FeretMaxAngle";
    "FeretMinAngle"; "FiberCurl"; "FiberStraightness"; "FilterScore";
    "GeodesicAspectRatio"; "GeodesicLength"; "GeodesicThickness"; "GroupId";
    "Id"; "ImageFilename"; "ImageX"; "ImageY"; "ImageH"; "ImageW";
    "Intensity"; "Length"; "Ppc"; "Perimeter"; "RatioBlueGreen";
    "RatioRedBlue"; "RatioRedGreen"; "Roughness"; "SigmaIntensity";
    "SrcImage"; "SrcX"; "SrcY"; "SphereComplement"; "SphereCount";
    "SphereUnknown"; "SphereVolume"; "SumIntensity"; "Symmetry"; "Time";
    "Timestamp"; "Transparency"; "Uuid"; "AbdVolume"; "EsdVolume"; "Width";
    "BiovolumeHSosik"; "SurfaceAreaHSosik"; "Preprocessing";
    "PreprocessingTrue"; "ProbabilityScore"; "LabelPredicted"; "LabelTrue"
  ].

(** The exact set of [uint64] columns of section 8. *)
Definition uint64_columns : list string :=
  [ "CalImage"; "GroupId"; "Id"; "ImageX"; "ImageY"; "ImageH"; "ImageW";
    "Ppc"; "SrcImage"; "SrcX"; "SrcY"; "SphereComplement"; "SphereCount";
    "SphereUnknown"; "SumIntensity" ].

(** The three [datetime] columns of sections 6 and 8. *)
Definition datetime_columns : list string := [ "Date"; "Time"; "Timestamp" ].

(** The [string] columns: the seven that the table of section 6 prints, and
    [PreprocessingTrue]. *)
Definition string_columns : list string :=
  [ "Name"; "CollageFile"; "ImageFilename"; "Uuid"; "Preprocessing";
    "PreprocessingTrue"; "LabelPredicted"; "LabelTrue" ].

(** The rows of the table of section 6, as printed (each row ends in an
    ellipsis there, except the [datetime] one). *)
Definition section6_examples : list (TypeTag * list string) :=
  [ (TFloat32, [ "AbdArea"; "AspectRatio"; "Circularity"; "Length"; "Perimeter" ]);
    (TUInt64, [ "CalImage"; "GroupId"; "Id"; "ImageX"; "ImageY"; "Ppc";
                "SrcImage"; "SumIntensity" ]);
    (TString, [ "Name"; "CollageFile"; "ImageFilename"; "Uuid"; "Preprocessing";
                "LabelPredicted"; "LabelTrue" ]);
    (TDateTime, [ "Date"; "Time"; "Timestamp" ]) ].

Definition mem (name : string) (l : list string) : bool :=
  existsb (String.eqb name) l.

(** The tag the specification gives a column: by membership in the three
    sets above, [float32] for the rest. *)
Definition reference_tag (name : string) : TypeTag :=
  if mem name uint64_columns then TUInt64
  else if mem name datetime_columns then TDateTime
  else if mem name string_columns then TString
  else TFloat32.

(** The reference name-to-type mapping, as a table. *)
Definition reference_table : list (string * TypeTag) :=
  map (fun name => (name, reference_tag name)) section6_columns.

(** The table with every value replaced by the tag it stands for. *)
Definition tagged (l : list (string * dtype)) : list (string * option TypeTag) :=
  map (fun kv => (fst kv, type_tag (snd kv))) l.

(** The columns of [Enumerate()] whose value stands for tag [t]. *)
Definition columns_tagged (t : TypeTag) : list string :=
  map fst
    (filter (fun kv => match type_tag (snd kv) with
                       | Some t' => TypeTag_eqb t t'
                       | None => false
                       end) Enumerate).


(** *** Boolean forms of the interface predicates *)

Definition tag_isb (t : TypeTag) (v : dtype) : bool :=
  match type_tag v with
  | Some t' => TypeTag_eqb t t'
  | None => false
  end.

Definition Lookup_returnsb (name : string) (t : TypeTag) : bool :=
  match Lookup name with
  | inr v => tag_isb t v
  | inl _ => false
  end.


(** *** The shape of column names *)

(** ASCII classes of a character, by code point. *)
Definition is_upper (c : ascii) : bool :=
  let n := nat_of_ascii c in (65 <=? n)%nat && (n <=? 90)%nat.

Definition is_lower (c : ascii) : bool :=
  let n := nat_of_ascii c in (97 <=? n)%nat && (n <=? 122)%nat.

Definition is_digit (c : ascii) : bool :=
  let n := nat_of_ascii c in (48 <=? n)%nat && (n <=? 57)%nat.

Definition is_alnum (c : ascii) : bool :=
  is_upper c || is_lower c || is_digit c.

(** A name written in the table's style: an upper-case ASCII letter followed
    by ASCII letters and digits only. *)
Definition capitalised_alnum (name : string) : bool :=
  match name with
  | EmptyString => false
  | String c rest => is_upper c && forallb is_alnum (list_ascii_of_string rest)
  end.

(** [str.lower()] on ASCII letters; other characters are kept. *)
Definition ascii_lower (c : ascii) : ascii :=
  if is_upper c then ascii_of_nat (nat_of_ascii c + 32) else c.

Fixpoint str_lower (s : string) : string :=
  match s with
  | EmptyString => EmptyString
  | String c rest => String (ascii_lower c) (str_lower rest)
  end.

(** *** Reading a display without building the dict *)

(** The value of the last item of [entries] written under key [k], starting
    from [acc] when there is none. *)
Definition last_value_from {V : Type} (acc : option V) (k : string)
    (entries : list (string * V)) : option V :=
  fold_left (fun acc kv => if String.eqb k (fst kv) then Some (snd kv) else acc)
            entries acc.

Definition last_value {V : Type} (k : string) (entries : list (string * V)) : option V :=
  last_value_from None k entries.

(** The outcome of a subscription that found [o], or found nothing. *)
Definition subscript_outcome {V : Type} (k : string) (o : option V) : exn + V :=
  match o with
  | Some v => inr v
  | None => inl (KeyError k)
  end.

(** * Facts about dictionaries *)

Section DictFacts.
Context {V : Type}.
Implicit Types (d : PyDict.dict V) (k : string) (v : V).

Lemma getitem_inr_In k v d :
  PyDict.getitem k d = inr v -> In (k, v) (PyDict.items d).
Proof.
  induction d as [|[k' v'] d IH]; simpl; [discriminate|].
  destruct (String.eqb_spec k k') as [->|_].
  - intros [= ->]. now left.
  - intros H. right. now apply IH.
Qed.

Lemma getitem_inl k e d :
  PyDict.getitem k d = inl e -> e = KeyError k /\ ~ In k (PyDict.keys d).
Proof.
  induction d as [|[k' v'] d IH]; simpl.
  - intros [= <-]. split; [reflexivity | tauto].
  - destruct (String.eqb_spec k k') as [->|Hne]; [discriminate|].
    intros H. destruct (IH H) as [He Hnin]. split; [exact He|].
    intros [Hk|Hk]; [now apply Hne | now apply Hnin].
Qed.

Lemma getitem_absent k d :
  ~ In k (PyDict.keys d) -> PyDict.getitem k d = inl (KeyError k).
Proof.
  induction d as [|[k' v'] d IH]; simpl; [reflexivity|].
  intros Hnin. destruct (String.eqb_spec k k') as [->|_].
  - exfalso. apply Hnin. now left.
  - apply IH. intros Hk. apply Hnin. now right.
Qed.

Lemma getitem_present k d :
  In k (PyDict.keys d) -> exists v, PyDict.getitem k d = inr v.
Proof.
  induction d as [|[k' v'] d IH]; simpl; [tauto|].
  intros Hin. destruct (String.eqb_spec k k') as [->|Hne].
  - now exists v'.
  - destruct Hin as [Hk|Hk]; [now subst|]. now apply IH.
Qed.

Lemma In_getitem k v d :
  NoDup (PyDict.keys d) -> In (k, v) (PyDict.items d) ->
  PyDict.getitem k d = inr v.
Proof.
  induction d as [|[k' v'] d IH]; simpl; [tauto|].
  intros Hnd Hin. inversion Hnd as [|? ? Hnotin Hnd']; subst.
  destruct (String.eqb_spec k k') as [->|Hne].
  - destruct Hin as [[= ->]|Hin]; [reflexivity|].
    exfalso. apply Hnotin. now apply (in_map fst) in Hin.
  - destruct Hin as [[= -> ->]|Hin]; [now elim Hne|]. now apply IH.
Qed.

(** Storing under a key that is not there yet appends the item. *)
Lemma setitem_fresh k v d :
  ~ In k (PyDict.keys d) -> PyDict.setitem k v d = d ++ [(k, v)].
Proof.
  induction d as [|[k' v'] d IH]; simpl; [reflexivity|].
  intros Hnin. destruct (String.eqb_spec k k') as [->|_].
  - exfalso. apply Hnin. now left.
  - f_equal. apply IH. intros Hk. apply Hnin. now right.
Qed.

(** Storing never changes the keys that are there, nor their order. *)
Lemma keys_setitem k v d :
  PyDict.keys (PyDict.setitem k v d) =
  if PyDict.contains k d then PyDict.keys d else PyDict.keys d ++ [k].
Proof.
  unfold PyDict.contains.
  induction d as [|[k' v'] d IH]; simpl; [reflexivity|].
  destruct (String.eqb_spec k k') as [->|_]; simpl; [reflexivity|].
  change (map fst (PyDict.setitem k v d)) with (PyDict.keys (PyDict.setitem k v d)).
  rewrite IH. now destruct (existsb _ _).
Qed.

Lemma contains_In k d : PyDict.contains k d = true <-> In k (PyDict.keys d).
Proof.
  unfold PyDict.contains. rewrite existsb_exists. split.
  - intros [x [Hin Heq]]. apply String.eqb_eq in Heq. now subst.
  - intros Hin. exists k. split; [exact Hin | apply String.eqb_refl].
Qed.

Lemma setitem_NoDup k v d :
  NoDup (PyDict.keys d) -> NoDup (PyDict.keys (PyDict.setitem k v d)).
Proof.
  intros Hnd. rewrite keys_setitem.
  destruct (PyDict.contains k d) eqn:Hc; [exact Hnd|].
  apply NoDup_app; [exact Hnd | repeat constructor; simpl; tauto |].
  intros x Hx [<-|[]]. apply contains_In in Hx. congruence.
Qed.

Lemma fold_setitem_NoDup (es : list (string * V)) d :
  NoDup (PyDict.keys d) ->
  NoDup (PyDict.keys
           (fold_left (fun d kv => PyDict.setitem (fst kv) (snd kv) d) es d)).
Proof.
  revert d. induction es as [|[k v] es IH]; intros d Hnd; simpl; [exact Hnd|].
  apply IH. now apply setitem_NoDup.
Qed.

(** The keys of a dict display never repeat, whatever the display. *)
Lemma display_NoDup (es : list (string * V)) :
  NoDup (PyDict.keys (PyDict.display es)).
Proof. apply fold_setitem_NoDup. constructor. Qed.

Lemma fold_setitem_fresh (es : list (string * V)) d :
  NoDup (map fst (d ++ es)) ->
  fold_left (fun d kv => PyDict.setitem (fst kv) (snd kv) d) es d = d ++ es.
Proof.
  revert d. induction es as [|[k v] es IH]; intros d Hnd; simpl.
  - now rewrite app_nil_r.
  - assert (Hnin : ~ In k (PyDict.keys d)).
    { rewrite map_app in Hnd. simpl in Hnd.
      apply NoDup_remove_2 in Hnd. intros Hk. apply Hnd.
      apply in_or_app. now left. }
    rewrite (setitem_fresh k v d Hnin).
    rewrite IH; rewrite <- app_assoc; [reflexivity | exact Hnd].
Qed.

(** A display whose keys are pairwise distinct is stored item for item,
    in source order. *)
Lemma display_distinct (es : list (string * V)) :
  NoDup (map fst es) -> PyDict.display es = es.
Proof. intros Hnd. apply (fold_setitem_fresh es []). exact Hnd. Qed.
End DictFacts.

(** A repeated key in a display keeps its first position and its last
    value; a subscription of an absent key raises. *)
Example display_repeated_key :
  PyDict.display [("a", 1); ("b", 2); ("a", 3)] = [("a", 3); ("b", 2)].
Proof. reflexivity. Qed.

Example getitem_absent_key :
  PyDict.getitem "c" (PyDict.display [("a", 1); ("b", 2)]) = inl (KeyError "c").
Proof. reflexivity. Qed.

(** * Facts about the interface *)

Lemma TypeTag_eqb_eq (a b : TypeTag) : TypeTag_eqb a b = true <-> a = b.
Proof. destruct a, b; simpl; split; congruence. Qed.

Lemma mem_In (name : string) (l : list string) : mem name l = true <-> In name l.
Proof.
  unfold mem. rewrite existsb_exists. split.
  - intros [x [Hin Heq]]. apply String.eqb_eq in Heq. now subst.
  - intros Hin. exists name. split; [exact Hin | apply String.eqb_refl].
Qed.

Lemma tag_isb_spec (t : TypeTag) (v : dtype) :
  tag_isb t v = true <-> type_tag v = Some t.
Proof.
  unfold tag_isb. destruct (type_tag v) as [t'|].
  - rewrite TypeTag_eqb_eq. split; congruence.
  - split; discriminate.
Qed.

Lemma Lookup_returnsb_spec (name : string) (t : TypeTag) :
  Lookup_returnsb name t = true <-> Lookup_returns name t.
Proof.
  unfold Lookup_returnsb, Lookup_returns.
  destruct (Lookup name) as [e|v].
  - split; [discriminate | intros [v [[=] _]]].
  - rewrite tag_isb_spec. split.
    + intros H. now exists v.
    + intros [v' [[= <-] H]]. exact H.
Qed.

(** Closed lists of names: pairwise distinctness and membership by
    evaluation. *)
Ltac distinct_names :=
  let x := fresh "x" in
  let Hx := fresh "Hx" in
  apply (NoDup_count_occ' string_dec); intros x Hx;
  repeat (destruct Hx as [<-|Hx]; [vm_compute; reflexivity|]); destruct Hx.

Ltac name_in := apply (proj1 (mem_In _ _)); vm_compute; reflexivity.

Ltac name_not_in :=
  let H := fresh "H" in
  intros H; apply (proj2 (mem_In _ _)) in H; vm_compute in H; discriminate.

(** The keys of the display are pairwise distinct, so the table holds the
    items of the display as they are written. *)
Lemma column_name_types_distinct : NoDup (map fst column_name_types_display).
Proof. distinct_names. Qed.

Lemma column_name_types_unfold : column_name_types = column_name_types_display.
Proof. apply display_distinct, column_name_types_distinct. Qed.

(** A property checked on every item of [Enumerate()] holds of every
    successful [Lookup]. *)
Lemma Lookup_forallb (P : string -> dtype -> bool) :
  forallb (fun kv => P (fst kv) (snd kv)) Enumerate = true ->
  forall name v, Lookup name = inr v -> P name v = true.
Proof.
  intros Hall name v Hl. apply getitem_inr_In in Hl.
  rewrite forallb_forall in Hall. exact (Hall (name, v) Hl).
Qed.

Lemma declared_Lookup (name : string) :
  declared name <-> exists v, Lookup name = inr v.
Proof.
  split.
  - apply getitem_present.
  - intros [v Hv]. apply getitem_inr_In in Hv.
    now apply (in_map fst) in Hv.
Qed.


(** Every value a [Lookup] returns stands for a type tag. *)
Lemma Lookup_value_tagged (name : string) (v : dtype) :
  Lookup name = inr v -> exists t, type_tag v = Some t.
Proof.
  intros Hv.
  pose proof (Lookup_forallb
                (fun _ v => match type_tag v with Some _ => true | None => false end)
                ltac:(vm_compute; reflexivity) name v Hv) as H.
  simpl in H. destruct (type_tag v) as [t|]; [now exists t | discriminate].
Qed.

(** The columns that return tag [t] are exactly those of [l], as soon as two
    finite checks succeed: every name of [l] returns [t], and every item of
    the table whose value stands for [t] has its name in [l]. *)
Lemma tag_set_exact (t : TypeTag) (l : list string) :
  forallb (fun n => Lookup_returnsb n t) l = true ->
  forallb (fun kv => implb (tag_isb t (snd kv)) (mem (fst kv) l)) Enumerate = true ->
  forall name, Lookup_returns name t <-> In name l.
Proof.
  intros Hin Hout name. split.
  - intros [v [Hl Ht]].
    pose proof (Lookup_forallb (fun k v => implb (tag_isb t v) (mem k l)) Hout name v Hl) as H.
    simpl in H. apply tag_isb_spec in Ht. rewrite Ht in H. now apply mem_In.
  - intros Hl. rewrite forallb_forall in Hin.
    now apply Lookup_returnsb_spec, Hin.
Qed.

(** The table read as tags is the reference table, entry for entry. *)
Lemma tagged_Enumerate_reference :
  tagged Enumerate = map (fun kt => (fst kt, Some (snd kt))) reference_table.
Proof. vm_compute. reflexivity. Qed.

(** Every row of the table printed in section 6 agrees with the code. *)
Lemma section6_examples_agree :
  Forall (fun row => Forall (fun name => Lookup_returns name (fst row)) (snd row))
         section6_examples.
Proof.
  apply Forall_forall. intros [t l] Hrow. apply Forall_forall. intros name Hname.
  apply Lookup_returnsb_spec. simpl.
  assert (Hall : forallb (fun row => forallb (fun n => Lookup_returnsb n (fst row)) (snd row))
                         section6_examples = true) by (vm_compute; reflexivity).
  rewrite forallb_forall in Hall. specialize (Hall (t, l) Hrow). simpl in Hall.
  rewrite forallb_forall in Hall. exact (Hall name Hname).
Qed.

(** * The claims *)



(** C2: the column names that look up to uint64 are exactly the fifteen
    names CalImage, GroupId, Id, ImageX, ImageY, ImageH, ImageW, Ppc,
    SrcImage, SrcX, SrcY, SphereComplement, SphereCount, SphereUnknown and
    SumIntensity: each of them looks up to uint64, and no other name does. *)
Theorem uint64_columns_exact :
  length uint64_columns = 15 /\
  NoDup uint64_columns /\
  forall name, Lookup_returns name TUInt64 <-> In name uint64_columns.
Proof.
  split; [reflexivity|]. split.
  - distinct_names.
  - apply tag_set_exact; vm_compute; reflexivity.
Qed.



(** C4: [Enumerate()] yields exactly eighty entries, and their names are
    pairwise distinct. *)
Theorem Enumerate_80_distinct :
  length Enumerate = 80 /\
  PyDict.len column_name_types = 80 /\
  NoDup (map fst Enumerate).
Proof.
  split; [vm_compute; reflexivity|]. split; [vm_compute; reflexivity|].
  exact (display_NoDup column_name_types_display).
Qed.

(** C5: [Enumerate()] yields the pairs in insertion order, which is the order
    of the items in the source and of the full column list of section 6: it
    starts with Name, AbdArea, FilledArea and ends with ProbabilityScore,
    LabelPredicted, LabelTrue. *)
Theorem Enumerate_insertion_order :
  Enumerate = column_name_types_display /\
  map fst Enumerate = section6_columns /\
  firstn 3 (map fst Enumerate) = ["Name"; "AbdArea"; "FilledArea"] /\
  skipn 77 (map fst Enumerate) = ["ProbabilityScore"; "LabelPredicted"; "LabelTrue"].
Proof.
  split; [exact column_name_types_unfold|].
  repeat split; vm_compute; reflexivity.
Qed.

(** C6: [Lookup] of a name that is not declared, such as NotAColumn, returns
    no type tag: it fails with the absent-key error (Python's [KeyError], the
    specification's UnknownColumnError).  That is the only failure there is,
    and [Lookup] of a declared name never fails. *)
Theorem Lookup_fails_iff_undeclared (name : string) :
  (~ declared name ->
   Lookup name = inl (KeyError name) /\ forall t, ~ Lookup_returns name t) /\
  (declared name -> exists t, Lookup_returns name t) /\
  (forall e, Lookup name = inl e -> e = KeyError name /\ ~ declared name).
Proof.
  split; [|split].
  - intros Hn. pose proof (getitem_absent name column_name_types Hn) as Hf.
    split; [exact Hf|]. intros t [v [Hv _]].
    unfold Lookup in Hv. rewrite Hf in Hv. discriminate.
  - intros Hd. apply declared_Lookup in Hd. destruct Hd as [v Hv].
    destruct (Lookup_value_tagged name v Hv) as [t Ht].
    exists t, v. now split.
  - intros e. apply getitem_inl.
Qed.

Lemma Lookup_fails_iff_undeclared_witness :
  ~ declared "NotAColumn" /\
  Lookup "NotAColumn" = inl (KeyError "NotAColumn") /\
  forall t, ~ Lookup_returns "NotAColumn" t.
Proof.
  assert (H : ~ declared "NotAColumn") by name_not_in.
  split; [exact H|].
  exact (proj1 (Lookup_fails_iff_undeclared "NotAColumn") H).
Defined.

(** C7: every value stored in the table is one of exactly four kinds:
    float32, uint64, string or datetime.  The tag of every declared column
    lies in that set, and each of the four occurs. *)
Theorem values_four_kinds :
  (forall name v, Lookup name = inr v ->
     exists t, type_tag v = Some t /\ In t [TFloat32; TUInt64; TString; TDateTime]) /\
  (forall t, In t [TFloat32; TUInt64; TString; TDateTime] ->
     exists name, Lookup_returns name t).
Proof.
  split.
  - intros name v Hv. destruct (Lookup_value_tagged name v Hv) as [t Ht].
    exists t. split; [exact Ht|]. destruct t; simpl; tauto.
  - intros t Ht.
    assert (Hw : forall n, Lookup_returnsb n t = true -> exists name, Lookup_returns name t)
      by (intros n Hn; exists n; now apply Lookup_returnsb_spec).
    destruct Ht as [<-|[<-|[<-|[<-|[]]]]].
    + apply (Hw "AbdArea"). vm_compute. reflexivity.
    + apply (Hw "CalImage"). vm_compute. reflexivity.
    + apply (Hw "Name"). vm_compute. reflexivity.
    + apply (Hw "Date"). vm_compute. reflexivity.
Qed.

Lemma values_four_kinds_witness :
  Lookup "Date" = inr (py_str "Datetime64[pyarrow]") /\
  exists t, type_tag (py_str "Datetime64[pyarrow]") = Some t /\
            In t [TFloat32; TUInt64; TString; TDateTime].
Proof.
  assert (H : Lookup "Date" = inr (py_str "Datetime64[pyarrow]"))
    by (vm_compute; reflexivity).
  split; [exact H|].
  exact (proj1 values_four_kinds "Date" (py_str "Datetime64[pyarrow]") H).
Defined.



(** C10: the columns that look up to string are exactly the eight names
    Name, CollageFile, ImageFilename, Uuid, Preprocessing, PreprocessingTrue,
    LabelPredicted and LabelTrue; PreprocessingTrue is one of them; and
    exactly fifty-four of the eighty columns look up to float32. *)
Theorem string_columns_exact :
  length string_columns = 8 /\
  NoDup string_columns /\
  (forall name, Lookup_returns name TString <-> In name string_columns) /\
  Lookup_returns "PreprocessingTrue" TString /\
  length (columns_tagged TFloat32) = 54 /\
  length Enumerate = 80.
Proof.
  split; [reflexivity|]. split; [distinct_names|].
  split; [apply tag_set_exact; vm_compute; reflexivity|].
  split; [apply Lookup_returnsb_spec; vm_compute; reflexivity|].
  split; vm_compute; reflexivity.
Qed.

(** * Further properties of the table *)

Example capitalised_alnum_rejects :
  capitalised_alnum "" = false /\ capitalised_alnum "abdArea" = false /\
  capitalised_alnum "Abd Area" = false /\ capitalised_alnum "Abd_Area" = false.
Proof. repeat split; reflexivity. Qed.

Example str_lower_example : str_lower "Ch2Ch1Ratio" = "ch2ch1ratio".
Proof. reflexivity. Qed.

Example last_value_example :
  last_value "a" [("a", 1); ("b", 2); ("a", 3)] = Some 3 /\
  last_value "c" [("a", 1); ("b", 2); ("a", 3)] = None.
Proof. split; reflexivity. Qed.

Section DisplayFacts.
Context {V : Type}.
Implicit Types (d : PyDict.dict V) (k : string) (v : V).

(** Reading back after a store: the stored key gives the new value, every
    other key gives what it gave before. *)
Lemma getitem_setitem k k' v d :
  PyDict.getitem k (PyDict.setitem k' v d) =
  if String.eqb k k' then inr v else PyDict.getitem k d.
Proof.
  induction d as [|[k0 v0] d IH]; simpl.
  - destruct (String.eqb_spec k k'); reflexivity.
  - destruct (String.eqb_spec k' k0) as [->|Hne]; simpl.
    + destruct (String.eqb_spec k k0); reflexivity.
    + destruct (String.eqb_spec k k0) as [->|Hk].
      * destruct (String.eqb_spec k0 k'); [congruence | reflexivity].
      * exact IH.
Qed.

Lemma getitem_outcome k d :
  exists o, PyDict.getitem k d = subscript_outcome k o.
Proof.
  destruct (PyDict.getitem k d) as [e|v] eqn:Hg.
  - exists None. apply getitem_inl in Hg. destruct Hg as [-> _]. reflexivity.
  - now exists (Some v).
Qed.

Lemma getitem_fold_setitem k (es : list (string * V)) :
  forall d o, PyDict.getitem k d = subscript_outcome k o ->
  PyDict.getitem k
    (fold_left (fun d kv => PyDict.setitem (fst kv) (snd kv) d) es d) =
  subscript_outcome k (last_value_from o k es).
Proof.
  induction es as [|[k' v'] es IH]; intros d o Hd; simpl; [exact Hd|].
  apply IH. rewrite getitem_setitem. simpl.
  destruct (String.eqb k k'); [reflexivity | exact Hd].
Qed.
End DisplayFacts.

Lemma NoDup_map_injective {A B : Type} (f : A -> B) (l : list A) :
  NoDup (map f l) -> forall x y, In x l -> In y l -> f x = f y -> x = y.
Proof.
  induction l as [|a l IH]; simpl; intros Hnd x y Hx Hy Hf; [tauto|].
  inversion Hnd as [|? ? Hnotin Hnd']; subst.
  destruct Hx as [<-|Hx], Hy as [<-|Hy].
  - reflexivity.
  - exfalso. apply Hnotin. rewrite Hf. now apply in_map.
  - exfalso. apply Hnotin. rewrite <- Hf. now apply in_map.
  - now apply IH.
Qed.

(** X1: the items written in the source display are exactly what [Lookup]
    returns: every written item is found under its name with the value
    written for it (none is shadowed by another), and [Lookup] returns
    nothing that is not written. *)
Theorem Lookup_iff_written (name : string) (v : dtype) :
  In (name, v) column_name_types_display <-> Lookup name = inr v.
Proof.
  unfold Lookup. rewrite column_name_types_unfold. split.
  - apply In_getitem. exact column_name_types_distinct.
  - apply getitem_inr_In.
Qed.

(** X2: [Lookup] returns float32 exactly for the declared names that are in
    none of the uint64, string and datetime sets. *)
Theorem float32_columns_are_the_rest (name : string) :
  Lookup_returns name TFloat32 <->
  declared name /\ ~ In name uint64_columns /\
  ~ In name string_columns /\ ~ In name datetime_columns.
Proof.
  assert (Hu : forall n, Lookup_returns n TUInt64 <-> In n uint64_columns)
    by (apply tag_set_exact; vm_compute; reflexivity).
  assert (Hs : forall n, Lookup_returns n TString <-> In n string_columns)
    by (apply tag_set_exact; vm_compute; reflexivity).
  assert (Hd : forall n, Lookup_returns n TDateTime <-> In n datetime_columns)
    by (apply tag_set_exact; vm_compute; reflexivity).
  assert (Hone : forall t, Lookup_returns name TFloat32 ->
                           Lookup_returns name t -> t = TFloat32).
  { intros t [v [Hv Ht]] [v' [Hv' Ht']]. congruence. }
  split.
  - intros Hf. split; [apply declared_Lookup; destruct Hf as [v [Hv _]]; now exists v|].
    split; [|split]; intros Hin.
    + apply Hu in Hin. specialize (Hone _ Hf Hin). discriminate.
    + apply Hs in Hin. specialize (Hone _ Hf Hin). discriminate.
    + apply Hd in Hin. specialize (Hone _ Hf Hin). discriminate.
  - intros [Hdecl [Hnu [Hns Hnd]]].
    apply declared_Lookup in Hdecl. destruct Hdecl as [v Hv].
    pose proof (Lookup_forallb
                  (fun k v => mem k uint64_columns
                              || (mem k string_columns
                                  || (mem k datetime_columns || tag_isb TFloat32 v)))
                  ltac:(vm_compute; reflexivity) name v Hv) as H.
    cbv beta in H.
    repeat (apply orb_true_iff in H; destruct H as [H|H];
            [apply mem_In in H; tauto|]).
    exists v. split; [exact Hv | now apply tag_isb_spec].
Qed.

(** X3: every declared column name is an upper-case ASCII letter followed by
    ASCII letters and digits only (no space, underscore or other separator),
    and is between 2 and 19 characters long. *)
Theorem declared_names_shape (name : string) :
  declared name ->
  capitalised_alnum name = true /\ (2 <= String.length name <= 19)%nat.
Proof.
  intros Hd.
  assert (Hall : forallb (fun n => capitalised_alnum n
                                   && ((2 <=? String.length n)%nat
                                       && (String.length n <=? 19)%nat))
                         (PyDict.keys column_name_types) = true)
    by (vm_compute; reflexivity).
  rewrite forallb_forall in Hall. specialize (Hall name Hd).
  apply andb_true_iff in Hall. destruct Hall as [Hc Hl].
  apply andb_true_iff in Hl. destruct Hl as [Hlo Hhi].
  apply Nat.leb_le in Hlo. apply Nat.leb_le in Hhi. now split.
Qed.

Lemma declared_names_shape_witness :
  declared "Id" /\
  capitalised_alnum "Id" = true /\ (2 <= String.length "Id" <= 19)%nat.
Proof.
  assert (H : declared "Id") by name_in.
  split; [exact H | exact (declared_names_shape "Id" H)].
Defined.

(** X4: no two declared column names differ only in letter case: declared
    names that are equal after [lower()] are equal. *)
Theorem declared_names_case_insensitively_distinct (n1 n2 : string) :
  declared n1 -> declared n2 -> str_lower n1 = str_lower n2 -> n1 = n2.
Proof.
  apply NoDup_map_injective. vm_compute. distinct_names.
Qed.

Lemma declared_names_case_insensitively_distinct_witness :
  declared "SrcX" /\ str_lower "SrcX" = str_lower "SrcX" /\ "SrcX" = "SrcX".
Proof.
  assert (H : declared "SrcX") by name_in.
  assert (Hl : str_lower "SrcX" = str_lower "SrcX") by reflexivity.
  split; [exact H|]. split; [exact Hl|].
  exact (declared_names_case_insensitively_distinct "SrcX" "SrcX" H H Hl).
Defined.

(** X5: a dict display can be read without building the dict: for any
    display, subscription by a key returns the value of the last item
    written under that key, and raises [KeyError] exactly when no item is
    written under it. *)
Theorem getitem_display_last {V : Type} (k : string) (es : list (string * V)) :
  PyDict.getitem k (PyDict.display es) = subscript_outcome k (last_value k es).
Proof. apply getitem_fold_setitem. reflexivity. Qed.
